(** * pypipeline: composition of callables into linear pipelines

    A shallow embedding of [pypipeline/compose.py], [pypipeline/pipeline.py]
    and [pypipeline/_warnings.py], and the properties of the pipeline
    builder stated over it. *)

From Stdlib Require Import ZArith String List Lia.
From stdpp Require Import base option list strings gmap fin_maps.
Import ListNotations.
Local Open Scope string_scope.

(** ** Python values, exceptions and the interpreter state *)

#[local] Set Warnings "-register-all".

(** First-order Python values that travel between stages. *)
Inductive value : Type :=
| VNone
| VBool (b : bool)
| VInt (z : Z)
| VStr (s : string)
| VTuple (vs : list value)
| VList (vs : list value).

(** A raised exception: its class name and its message. *)
Record exn : Type := Exn { exn_type : string; exn_msg : string }.

(** The result of evaluating a Python expression: a value or a raised exception. *)
Inductive outcome (A : Type) : Type :=
| Ret (a : A)
| Raise (e : exn).
Arguments Ret {A} a.
Arguments Raise {A} e.

(** The arguments of one [warnings.warn(message, category, stacklevel)] call. *)
Record warning : Type :=
  Warning { w_message : string; w_category : string; w_stacklevel : Z }.

(** What the interpreter's warning filter does with a warning; of the
    filter's actions these three do not depend on the location of the
    call. *)
Inductive action : Type :=
| act_error
| act_ignore
| act_always.

(** Strings hold Python [str] values in their UTF-8 encoding.  A byte of the
    form [10xxxxxx] continues the code point that the bytes before it began. *)
Definition is_continuation (c : Ascii.ascii) : bool :=
  match c with
  | Ascii.Ascii _ _ _ _ _ _ b6 b7 => b7 && negb b6
  end.

(** The string does not begin in the middle of a code point. *)
Definition starts_code_point (s : string) : bool :=
  match s with
  | EmptyString => true
  | String c _ => negb (is_continuation c)
  end.

(** The code points of a string, each with the bytes that encode it: a byte
    is put in front of the first piece of the rest when the rest begins with
    a continuation byte, and is a piece of its own otherwise. *)
Fixpoint code_points (s : string) : list string :=
  match s with
  | EmptyString => []
  | String c s' =>
      if starts_code_point s' then String c EmptyString :: code_points s'
      else match code_points s' with
           | piece :: pieces => String c piece :: pieces
           | [] => [String c EmptyString]
           end
  end.

Fixpoint all_continuation (s : string) : bool :=
  match s with
  | EmptyString => true
  | String c s' => is_continuation c && all_continuation s'
  end.

(** The string is one leading byte followed by continuation bytes only. *)
Definition one_code_point (s : string) : bool :=
  match s with
  | EmptyString => false
  | String c s' => negb (is_continuation c) && all_continuation s'
  end.

(** The strings of a list, one after the other. *)
Definition join (pieces : list string) : string :=
  fold_right String.append EmptyString pieces.

Section PyPipeline.

(** Whatever state the user's callables read and write. *)
Context {world : Type}.

(** The interpreter state threaded through every call: the user's state and
    the warnings that the interpreter has shown so far (in order). *)
Record interp : Type := Interp { user : world; warnings : list warning }.

(** Computations that may change the state and may raise. *)
Definition M (A : Type) : Type := interp -> interp * outcome A.

Definition ret {A} (a : A) : M A := fun st => (st, Ret a).
Definition raise {A} (e : exn) : M A := fun st => (st, Raise e).
Definition bind {A B} (c : M A) (k : A -> M B) : M B :=
  fun st => match c st with
            | (st', Ret a) => k a st'
            | (st', Raise e) => (st', Raise e)
            end.

Notation "x <- c ;; k" := (bind c (fun x => k))
  (at level 100, c at next level, right associativity).

(** Keyword arguments, in call order. *)
Definition kwargs : Type := list (string * value).

(** A Python callable, applied to positional and keyword arguments. *)
Definition callable : Type := list value -> kwargs -> M value.

(** An object bound where a callable is expected: [None] or a callable. *)
Definition pyfun : Type := option callable.

(** The text by which the interpreter names a callee in its error messages
    (for a function its qualified name followed by [()]).  It belongs to
    the interpreter, not to this code, and is a parameter here. *)
Class Naming : Type := func_str : pyfun -> string.

Context `{Naming}.

Definition TypeError (msg : string) : exn := Exn "TypeError" msg.
Definition ValueError (msg : string) : exn := Exn "ValueError" msg.
Definition AttributeError (msg : string) : exn := Exn "AttributeError" msg.

(** [type(v).__name__] *)
Definition type_name (v : value) : string :=
  match v with
  | VNone => "NoneType"
  | VBool _ => "bool"
  | VInt _ => "int"
  | VStr _ => "str"
  | VTuple _ => "tuple"
  | VList _ => "list"
  end.

(** The call expression [c(...)]: calling [None] raises. *)
Definition py_call (c : pyfun) (args : list value) (kw : kwargs) : M value :=
  match c with
  | Some fn => fn args kw
  | None => raise (TypeError "'NoneType' object is not callable")
  end.

(** The items of a [str]: its code points, each a [str] of length one. *)
Definition chars (s : string) : list value := map VStr (code_points s).

(** Whether a starred value can be spread. *)
Definition iterable (v : value) : bool :=
  match v with
  | VTuple _ | VList _ | VStr _ => true
  | _ => false
  end.

(** The positional arguments that a starred [v] contributes to a call of
    [callee]: the items of an iterable, and for anything else a
    [TypeError] whose message names the callee. *)
Definition star (callee : pyfun) (v : value) : M (list value) :=
  match v with
  | VTuple vs => ret vs
  | VList vs => ret vs
  | VStr s => ret (chars s)
  | _ => raise (TypeError (func_str callee
                           ++ " argument after * must be an iterable, not "
                           ++ type_name v))
  end.

(** ** compose.py *)

(** [_compose_no_ret_unpack(f, g)]: [inner] passes its arguments to [f] and
    the result of [f], as the one positional argument, to [g]. *)
Definition _compose_no_ret_unpack (f g : pyfun) : callable :=
  fun args kw =>
    r <- py_call f args kw ;;
    py_call g [r] [].

(** [_compose_ret_tuple_unpack(f, g)]: [inner] passes its arguments to [f]
    and the items of the result of [f], as positional arguments, to [g]. *)
Definition _compose_ret_tuple_unpack (f g : pyfun) : callable :=
  fun args kw =>
    r <- py_call f args kw ;;
    rs <- star g r ;;
    py_call g rs [].

(** [compose(f, g)], the public alias. *)
Definition compose (f g : pyfun) : callable := _compose_no_ret_unpack f g.

(** ** _warnings.py *)

(** [warnings.warn] is the interpreter's, not this code's: it is the
    parameter [py_warn] of the two functions that reach it.  [warn_under]
    is what it does when the filter's action for the warning is [a]:
    raise the warning as an exception, drop it, or show it. *)
Definition warn_under (a : action) (w : warning) : M unit :=
  match a with
  | act_error => raise (Exn (w_category w) (w_message w))
  | act_ignore => ret tt
  | act_always => fun st => (Interp (user st) (warnings st ++ [w]), Ret tt)
  end.

Definition unstable_operator_warning : warning :=
  Warning "Operator `|` is experimental/unstable. Prefer `call` method instead."
          "UnstableFeatureWarning" 3.

(** [warning_unstable_feature_or_operator()] *)
Definition warning_unstable_feature_or_operator (py_warn : warning -> M unit)
  : M unit :=
  py_warn unstable_operator_warning.

(** ** pipeline.py *)

(** The three stage classes.  [Pipeline] has no field; [_PipeStd] and
    [_PipeTUn] have the single field [f] of [_PipeBase]. *)
Inductive pipe : Type :=
| Pipeline
| _PipeStd (f : pyfun)
| _PipeTUn (f : pyfun).

(** The class attribute [_compose_type]. *)
Definition _compose_type (self : pipe) : string :=
  match self with
  | Pipeline => "no_compose"
  | _PipeStd _ => "regular"
  | _PipeTUn _ => "tuple_unpack"
  end.

(** The attribute [self.f]: the field of [_PipeBase], or the class
    attribute [f = None] of [_PipeThenMixin] for [Pipeline]. *)
Definition self_f (self : pipe) : pyfun :=
  match self with
  | Pipeline => None
  | _PipeStd f => f
  | _PipeTUn f => f
  end.

(** [str(type(self))] *)
Definition type_str (self : pipe) : string :=
  match self with
  | Pipeline => "<class 'pypipeline.pipeline.Pipeline'>"
  | _PipeStd _ => "<class 'pypipeline.pipeline._PipeStd'>"
  | _PipeTUn _ => "<class 'pypipeline.pipeline._PipeTUn'>"
  end.

Definition _then_impl (self : pipe) (f : pyfun) (result_unpack : option string)
  : outcome pipe :=
  match result_unpack with
  | None => Ret (_PipeStd f)
  | Some ru =>
      if String.eqb ru "tuple" then Ret (_PipeTUn f)
      else Raise (ValueError ("Unsupported unpack result: " ++ ru))
  end.

Definition _compose_self_with (self : pipe) (f : pyfun) : outcome pyfun :=
  if String.eqb (_compose_type self) "no_compose" then Ret f
  else match self_f self with
       | None =>
           Raise (ValueError ("Wrong compose type " ++ _compose_type self
                              ++ " for " ++ type_str self))
       | Some _ =>
           if String.eqb (_compose_type self) "regular"
           then Ret (Some (_compose_no_ret_unpack (self_f self) f))
           else if String.eqb (_compose_type self) "tuple_unpack"
           then Ret (Some (_compose_ret_tuple_unpack (self_f self) f))
           else Raise (ValueError ("Unsupported compose type: " ++ _compose_type self))
       end.

Definition _then (self : pipe) (f : pyfun) (result_unpack : option string)
  : outcome pipe :=
  match _compose_self_with self f with
  | Ret func => _then_impl self func result_unpack
  | Raise e => Raise e
  end.

(** [self.then(f, result_unpack=...)], the same body in all three classes. *)
Definition then_ (self : pipe) (f : pyfun) (result_unpack : option string)
  : outcome pipe :=
  _then self f result_unpack.

(** [self >> f] *)
Definition __rshift__ (self : pipe) (f : pyfun) : outcome pipe :=
  then_ self f None.

(** [self.call(...)]; [Pipeline] has no such method. *)
Definition call (self : pipe) (args : list value) (kw : kwargs) : M value :=
  match self with
  | Pipeline => raise (AttributeError "'Pipeline' object has no attribute 'call'")
  | _PipeStd f => py_call f args kw
  | _PipeTUn f => py_call f args kw
  end.

(** [self.__or__(...)]; [Pipeline] does not define it.  The expression
    [self | x] evaluates it with [x] as the one positional argument and no
    keyword argument. *)
Definition __or__ (py_warn : warning -> M unit)
  (self : pipe) (args : list value) (kw : kwargs) : M value :=
  match self with
  | Pipeline => raise (AttributeError "'Pipeline' object has no attribute '__or__'")
  | _ =>
      _ <- warning_unstable_feature_or_operator py_warn ;;
      call self args kw
  end.

(** ** Client programs: chains of [then] calls *)

(** [p.then(g1, result_unpack=r1).then(g2, result_unpack=r2)...], stopping at
    the first [then] that raises. *)
Fixpoint then_all (p : pipe) (gs : list (pyfun * option string)) : outcome pipe :=
  match gs with
  | [] => Ret p
  | (g, ru) :: gs' =>
      match then_ p g ru with
      | Ret p' => then_all p' gs'
      | Raise e => Raise e
      end
  end.

(** The [result_unpack] argument of a stage that is, or is not, flagged. *)
Definition unpack_arg (flag : bool) : option string :=
  if flag then Some "tuple" else None.

(** The [then] arguments for a list of actual callables with their flags. *)
Definition as_then_args (fs : list (callable * bool)) : list (pyfun * option string) :=
  map (fun fb => (Some (fst fb), unpack_arg (snd fb))) fs.

(** The [then] arguments for a list of callables appended with plain [then]. *)
Definition plain (fs : list callable) : list (callable * bool) :=
  map (fun f => (f, false)) fs.

(** ** Reference semantics, following the specification's words *)

(** What a joint hands to the next callable [callee]: the one value, or
    its items when the stage before the joint is flagged for tuple
    unpacking. *)
Definition hand_off (callee : pyfun) (spread : bool) (v : value) : M (list value) :=
  if spread then star callee v else ret [v].

(** The callables applied left to right to the value [v], with the
    unpacking of each joint. *)
Fixpoint left_to_right (fs : list (callable * bool)) (spread : bool) (v : value)
  : M value :=
  match fs with
  | [] => ret v
  | (g, flag) :: rest =>
      a <- hand_off (Some g) spread v ;;
      r <- g a [] ;;
      left_to_right rest flag r
  end.

(** Each callable applied to the single return value of the one before. *)
Fixpoint apply_each (fs : list callable) (v : value) : M value :=
  match fs with
  | [] => ret v
  | g :: rest => r <- g [v] [] ;; apply_each rest r
  end.

(** ** Notions used to state the properties *)

(** Whether the callable appended to [self] receives the items of the
    result of [self]. *)
Definition spreads (self : pipe) : bool :=
  String.eqb (_compose_type self) "tuple_unpack".

(** The arguments with which the callable [callee] appended to [self] is
    entered when the extended pipeline is called with [args] and [kw]. *)
Definition next_args (self : pipe) (callee : pyfun) (args : list value) (kw : kwargs)
  : M (list value * kwargs) :=
  match self with
  | Pipeline => ret (args, kw)
  | _ =>
      r <- call self args kw ;;
      a <- hand_off callee (spreads self) r ;;
      ret (a, [])
  end.

(** A stage as the data model has it: the empty [Pipeline], or a stage
    that holds a callable. *)
Definition holds_callable (self : pipe) : bool :=
  match self with
  | Pipeline => true
  | _ => match self_f self with Some _ => true | None => false end
  end.

(** The stages that the public operations build from [Pipeline()] when
    they are given actual callables. *)
Inductive built : pipe -> Prop :=
| built_Pipeline : built Pipeline
| built_then (p : pipe) (g : callable) (ru : option string) (p' : pipe) :
    built p -> then_ p (Some g) ru = Ret p' -> built p'
| built_rshift (p : pipe) (g : callable) (p' : pipe) :
    built p -> __rshift__ p (Some g) = Ret p' -> built p'.

(** ** The methods as programs over the interpreter's object store *)

(** The machine state: the stage objects by address, and the interpreter
    state. *)
Definition machine : Type := gmap nat pipe * interp.

(** Programs over the machine.  [None] stands for the use of an address at
    which there is no object, which no Python program can express. *)
Definition P (A : Type) : Type := machine -> option (machine * outcome A).

Definition pbind {A B} (c : P A) (k : A -> P B) : P B :=
  fun m => match c m with
           | Some (m', Ret a) => k a m'
           | Some (m', Raise e) => Some (m', Raise e)
           | None => None
           end.

Notation "x <~ c ;; k" := (pbind c (fun x => k))
  (at level 100, c at next level, right associativity).

(** The outcome of an expression that uses neither the store nor the
    interpreter state. *)
Definition evaluate {A} (r : outcome A) : P A := fun m => Some (m, r).

(** Reading the attributes of [self]: the object at that address. *)
Definition load (self : nat) : P pipe :=
  fun m => match fst m !! self with
           | Some o => Some (m, Ret o)
           | None => None
           end.

(** A constructor call: the new object is bound at an address that no
    object has, and that address is the value of the call. *)
Definition construct (o : pipe) : P nat :=
  fun m => let a := fresh (dom (fst m)) in Some ((<[a := o]> (fst m), snd m), Ret a).

(** Running a callable, or the interpreter's [warnings.warn]: they work on
    the interpreter state and are handed no stage object. *)
Definition run {A} (c : M A) : P A :=
  fun m => let (st', r) := c (snd m) in Some ((fst m, st'), r).

(** [self._then_impl(f, result_unpack=ru)]: the two constructor calls. *)
Definition _then_impl_at (self : nat) (f : pyfun) (result_unpack : option string)
  : P nat :=
  match result_unpack with
  | None => construct (_PipeStd f)
  | Some ru =>
      if String.eqb ru "tuple" then construct (_PipeTUn f)
      else evaluate (Raise (ValueError ("Unsupported unpack result: " ++ ru)))
  end.

(** [self._compose_self_with(f)]: it reads [self._compose_type] and [self.f]
    and builds the composed callable from them. *)
Definition _compose_self_with_at (self : nat) (f : pyfun) : P pyfun :=
  o <~ load self ;;
  evaluate (_compose_self_with o f).

(** [self._then(f, result_unpack=ru)] *)
Definition _then_at (self : nat) (f : pyfun) (result_unpack : option string)
  : P nat :=
  func <~ _compose_self_with_at self f ;;
  _then_impl_at self func result_unpack.

(** [self.then(f, result_unpack=ru)] *)
Definition then_at (self : nat) (f : pyfun) (result_unpack : option string)
  : P nat :=
  _then_at self f result_unpack.

(** [self >> f] *)
Definition rshift_at (self : nat) (f : pyfun) : P nat :=
  then_at self f None.

(** [self.call(...)]: it reads [self.f] and calls it. *)
Definition call_at (self : nat) (args : list value) (kw : kwargs) : P value :=
  o <~ load self ;;
  match o with
  | Pipeline =>
      evaluate (Raise (AttributeError "'Pipeline' object has no attribute 'call'"))
  | _ => run (py_call (self_f o) args kw)
  end.

(** [self.__or__(...)] *)
Definition or_at (py_warn : warning -> M unit)
  (self : nat) (args : list value) (kw : kwargs) : P value :=
  o <~ load self ;;
  match o with
  | Pipeline =>
      evaluate (Raise (AttributeError "'Pipeline' object has no attribute '__or__'"))
  | _ =>
      _ <~ run (warning_unstable_feature_or_operator py_warn) ;;
      call_at self args kw
  end.

(** The two ways to append a stage. *)
Inductive append_op : Type :=
| by_then (f : pyfun) (result_unpack : option string)
| by_rshift (f : pyfun).

(** Appending to the stage object at [self]. *)
Definition append_at (self : nat) (op : append_op) : P nat :=
  match op with
  | by_then f ru => then_at self f ru
  | by_rshift f => rshift_at self f
  end.

(** Appending to the stage value [p]. *)
Definition append_to (p : pipe) (op : append_op) : outcome pipe :=
  match op with
  | by_then f ru => then_ p f ru
  | by_rshift f => __rshift__ p f
  end.

(** ** Further notions used to state properties of the composers *)

(** [compose(...compose(compose(f, g1), g2)..., gn)]: the public [compose]
    folded over a list of callables from the left. *)
Definition compose_all (f : callable) (gs : list callable) : callable :=
  fold_left (fun acc g => compose (Some acc) (Some g)) gs f.

(** The callable [c], whatever it is given and in whatever state it is
    entered, leaves the state related by [R] to the state it found. *)
Definition keeps (R : interp -> interp -> Prop) (c : callable) : Prop :=
  forall args kw st, R st (fst (c args kw st)).

(** The state keeps its log of shown warnings. *)
Definition same_warnings (st st' : interp) : Prop := warnings st' = warnings st.

End PyPipeline.

Notation "x <- c ;; k" := (bind c (fun x => k))
  (at level 100, c at next level, right associativity).

Notation "x <~ c ;; k" := (pbind c (fun x => k))
  (at level 100, c at next level, right associativity).

(** ** Sample callables, over a world that counts the calls made *)

Module Samples.

(** A naming of callees for the samples: every function alike. *)
#[global] Instance sample_naming : @Naming Z :=
  fun callee => match callee with
                | Some _ => "function()"
                | None => "NoneType object"
                end.

Definition tick : @M Z unit :=
  fun st => (Interp (user st + 1)%Z (warnings st), Ret tt).

(** [lambda a, b: (a // b, a % b)] *)
Definition divmod_ : @callable Z :=
  fun args kw =>
    _ <- tick ;;
    match args, kw with
    | [VInt a; VInt b], [] =>
        if Z.eqb b 0
        then raise (Exn "ZeroDivisionError" "integer division or modulo by zero")
        else ret (VTuple [VInt (a / b); VInt (a mod b)])
    | _, _ => raise (TypeError "divmod_() got unexpected arguments")
    end.

(** [lambda q, r: 10 * q + r] *)
Definition pack : @callable Z :=
  fun args kw =>
    _ <- tick ;;
    match args, kw with
    | [VInt q; VInt r], [] => ret (VInt (10 * q + r))
    | _, _ => raise (TypeError "pack() got unexpected arguments")
    end.

(** [lambda n: n + 1] *)
Definition succ_ : @callable Z :=
  fun args kw =>
    _ <- tick ;;
    match args, kw with
    | [VInt n], [] => ret (VInt (n + 1))
    | _, _ => raise (TypeError "succ_() got unexpected arguments")
    end.

(** [lambda n: 2 * n] *)
Definition double : @callable Z :=
  fun args kw =>
    _ <- tick ;;
    match args, kw with
    | [VInt n], [] => ret (VInt (2 * n))
    | _, _ => raise (TypeError "double() got unexpected arguments")
    end.

(** A callable that raises [CustomError("oops")] whatever it is given. *)
Definition raise_custom : @callable Z :=
  fun args kw => _ <- tick ;; raise (Exn "CustomError" "oops").

(** [def pipe_f1(a, *, b): return (a, b)] *)
Definition pipe_f1 : @callable Z :=
  fun args kw =>
    _ <- tick ;;
    match args, kw with
    | [VStr a], [(name, VInt b)] =>
        if String.eqb name "b" then ret (VTuple [VStr a; VInt b])
        else raise (TypeError "pipe_f1() got an unexpected keyword argument")
    | _, _ => raise (TypeError "pipe_f1() got unexpected arguments")
    end.

(** [lambda t: t[1]] on a pair *)
Definition second : @callable Z :=
  fun args kw =>
    _ <- tick ;;
    match args, kw with
    | [VTuple [_; b]], [] => ret b
    | _, _ => raise (TypeError "second() got unexpected arguments")
    end.

(** [lambda: "né"], a string of two code points in three bytes *)
Definition spell : @callable Z :=
  fun args kw =>
    _ <- tick ;;
    match args, kw with
    | [], [] => ret (VStr "né")
    | _, _ => raise (TypeError "spell() got unexpected arguments")
    end.

(** [lambda *a: len(a)] *)
Definition count : @callable Z :=
  fun args kw =>
    _ <- tick ;;
    match kw with
    | [] => ret (VInt (Z.of_nat (length args)))
    | _ => raise (TypeError "count() got an unexpected keyword argument")
    end.

(** The calls counted so far never decrease. *)
Definition counts_on (st st' : @interp Z) : Prop := (user st <= user st')%Z.

Definition st0 : @interp Z := Interp 0%Z [].

(** A store that holds one stage, [Pipeline().then(succ_)], at address 0. *)
Definition h0 : gmap nat (@pipe Z) := <[0 := _PipeStd (Some succ_)]> ∅.

(** The two continuations [.then(double)] and [>> raise_custom] of that
    stage. *)
Definition h1 : gmap nat (@pipe Z) :=
  <[1 := _PipeStd (Some (_compose_no_ret_unpack (Some succ_) (Some double)))]> h0.
Definition h2 : gmap nat (@pipe Z) :=
  <[2 := _PipeStd (Some (_compose_no_ret_unpack (Some succ_) (Some raise_custom)))]> h1.

End Samples.

(** ** Properties *)

Section Properties.

Context {world : Type} {naming : @Naming world}.

Abbreviation interp := (@interp world).
Abbreviation callable := (@callable world).
Abbreviation pyfun := (@pyfun world).
Abbreviation pipe := (@pipe world).

(** *** The state-and-exception monad *)

Lemma bind_ret_l {A B} (a : A) (k : A -> M B) (st : interp) :
  (x <- ret a ;; k x) st = k a st.
Proof. reflexivity. Qed.

Lemma bind_assoc {A B C} (c : M A) (k : A -> M B) (k' : B -> M C) (st : interp) :
  (y <- (x <- c ;; k x) ;; k' y) st = (x <- c ;; y <- k x ;; k' y) st.
Proof. unfold bind. destruct (c st) as [st' [a | e]]; reflexivity. Qed.

Lemma bind_ext {A B} (c c' : M A) (k k' : A -> M B) (st : interp) :
  c st = c' st -> (forall a st', k a st' = k' a st') ->
  (x <- c ;; k x) st = (x <- c' ;; k' x) st.
Proof.
  intros Hc Hk. unfold bind. rewrite Hc.
  destruct (c' st) as [st' [a | e]]; [apply Hk | reflexivity].
Qed.

Lemma bind_Ret {A B} (c : M A) (k : A -> M B) (st st' : interp) (a : A) :
  c st = (st', Ret a) -> (x <- c ;; k x) st = k a st'.
Proof. intros H. unfold bind. rewrite H. reflexivity. Qed.

Lemma bind_Raise {A B} (c : M A) (k : A -> M B) (st st' : interp) (e : exn) :
  c st = (st', Raise e) -> (x <- c ;; k x) st = (st', Raise e).
Proof. intros H. unfold bind. rewrite H. reflexivity. Qed.

(** *** One [then] on a stage that holds a callable *)

Lemma then_Pipeline (f : pyfun) (flag : bool) :
  then_ Pipeline f (unpack_arg flag)
  = Ret (if flag then _PipeTUn f else _PipeStd f).
Proof. destruct flag; reflexivity. Qed.

Lemma then_PipeStd (pf : callable) (g : pyfun) (flag : bool) :
  then_ (_PipeStd (Some pf)) g (unpack_arg flag)
  = Ret ((if flag then _PipeTUn else _PipeStd)
           (Some (_compose_no_ret_unpack (Some pf) g))).
Proof. destruct flag; reflexivity. Qed.

Lemma then_PipeTUn (pf : callable) (g : pyfun) (flag : bool) :
  then_ (_PipeTUn (Some pf)) g (unpack_arg flag)
  = Ret ((if flag then _PipeTUn else _PipeStd)
           (Some (_compose_ret_tuple_unpack (Some pf) g))).
Proof. destruct flag; reflexivity. Qed.

Lemma call_flag (c : pyfun) (flag : bool) args kw (st : interp) :
  call ((if flag then _PipeTUn else _PipeStd) c) args kw st = py_call c args kw st.
Proof. destruct flag; reflexivity. Qed.

Lemma spreads_flag (c : pyfun) (flag : bool) :
  spreads ((if flag then _PipeTUn else _PipeStd) c) = flag.
Proof. destruct flag; reflexivity. Qed.

(** *** Calling a chain equals the reference semantics *)

(** Extending a stage that holds [pf] by actual callables always succeeds,
    and the result calls [pf] and then the appended callables in order. *)
Lemma then_all_holding (fs : list (callable * bool)) :
  forall (pf : callable) (flag : bool),
  exists q : pipe,
    then_all ((if flag then _PipeTUn else _PipeStd) (Some pf)) (as_then_args fs) = Ret q
    /\ holds_callable q = true
    /\ (q = Pipeline -> False)
    /\ forall args kw (st : interp),
         call q args kw st = (r <- pf args kw ;; left_to_right fs flag r) st.
Proof.
  induction fs as [| [g b] rest IH]; intros pf flag.
  - exists ((if flag then _PipeTUn else _PipeStd) (Some pf)).
    repeat split.
    + destruct flag; reflexivity.
    + destruct flag; discriminate.
    + intros args kw st. rewrite call_flag. cbn [py_call left_to_right].
      unfold bind, ret. destruct (pf args kw st) as [st' [a | e]]; reflexivity.
  - destruct flag.
    + destruct (IH (_compose_ret_tuple_unpack (Some pf) (Some g)) b)
        as (q & Hq & Hh & Hne & Hcall).
      exists q. repeat split; try assumption.
      * cbn [as_then_args map then_all fst snd].
        rewrite (then_PipeTUn pf (Some g) b). exact Hq.
      * intros args kw st. rewrite Hcall.
        unfold _compose_ret_tuple_unpack. cbn [py_call left_to_right hand_off].
        rewrite bind_assoc. apply bind_ext; [reflexivity |].
        intros r st'. rewrite bind_assoc. reflexivity.
    + destruct (IH (_compose_no_ret_unpack (Some pf) (Some g)) b)
        as (q & Hq & Hh & Hne & Hcall).
      exists q. repeat split; try assumption.
      * cbn [as_then_args map then_all fst snd].
        rewrite (then_PipeStd pf (Some g) b). exact Hq.
      * intros args kw st. rewrite Hcall.
        unfold _compose_no_ret_unpack. cbn [py_call left_to_right hand_off].
        rewrite bind_assoc. reflexivity.
Qed.

(** A chain of actual callables started from [Pipeline()] always builds, and
    calling it enters the first callable with the call's own arguments and
    then applies the rest left to right. *)
Lemma call_chain (f : callable) (flag : bool) (rest : list (callable * bool)) :
  exists q : pipe,
    then_all Pipeline (as_then_args ((f, flag) :: rest)) = Ret q
    /\ holds_callable q = true
    /\ (q = Pipeline -> False)
    /\ forall args kw (st : interp),
         call q args kw st = (r <- f args kw ;; left_to_right rest flag r) st.
Proof.
  destruct (then_all_holding rest f flag) as (q & Hq & Hh & Hne & Hcall).
  exists q. repeat split; try assumption.
  cbn [as_then_args map then_all fst snd].
  rewrite (then_Pipeline (Some f) flag).
  destruct flag; exact Hq.
Qed.

Lemma left_to_right_plain (fs : list callable) (v : value) (st : interp) :
  left_to_right (plain fs) false v st = apply_each fs v st.
Proof.
  revert v st. induction fs as [| g rest IH]; intros v st; [reflexivity |].
  cbn [plain map left_to_right apply_each hand_off].
  rewrite bind_ret_l. apply bind_ext; [reflexivity | exact IH].
Qed.

Lemma then_all_app (p : pipe) (gs hs : list (pyfun * option string)) :
  then_all p (gs ++ hs)
  = match then_all p gs with
    | Ret q => then_all q hs
    | Raise e => Raise e
    end.
Proof.
  revert p. induction gs as [| [g ru] gs IH]; intros p; [reflexivity |].
  cbn [app then_all]. destruct (then_ p g ru) as [p' | e]; [apply IH | reflexivity].
Qed.

(** Appending [f] and then [post] to a stage that is empty or holds a
    callable: the extended pipeline enters [f] with [next_args]. *)
Lemma call_extended (p : pipe) (f : callable) (flag : bool)
  (post : list (callable * bool)) :
  holds_callable p = true ->
  exists q : pipe,
    then_all p (as_then_args ((f, flag) :: post)) = Ret q
    /\ forall args kw (st : interp),
         call q args kw st
         = (ak <- next_args p (Some f) args kw ;;
            r <- f (fst ak) (snd ak) ;;
            left_to_right post flag r) st.
Proof.
  intros Hp. destruct p as [| [pf |] | [pf |]]; cbn in Hp; try discriminate.
  - destruct (call_chain f flag post) as (q & Hq & _ & _ & Hcall).
    exists q. split; [exact Hq |]. intros args kw st. rewrite Hcall. reflexivity.
  - destruct (then_all_holding ((f, flag) :: post) pf false) as (q & Hq & _ & _ & Hcall).
    exists q. split; [exact Hq |]. intros args kw st. rewrite Hcall.
    cbn [next_args call py_call left_to_right spreads _compose_type hand_off].
    cbn [String.eqb Ascii.eqb Bool.eqb].
    rewrite bind_assoc. apply bind_ext; [reflexivity |]. intros r st'.
    reflexivity.
  - destruct (then_all_holding ((f, flag) :: post) pf true) as (q & Hq & _ & _ & Hcall).
    exists q. split; [exact Hq |]. intros args kw st. rewrite Hcall.
    cbn [next_args call py_call left_to_right spreads _compose_type hand_off].
    cbn [String.eqb Ascii.eqb Bool.eqb].
    rewrite bind_assoc. apply bind_ext; [reflexivity |]. intros r st'.
    rewrite bind_assoc. apply bind_ext; [reflexivity |]. intros a st''.
    reflexivity.
Qed.

(** A chain of actual callables builds a stage that is empty or holds a
    callable. *)
Lemma then_all_holds (fs : list (callable * bool)) (p : pipe) :
  then_all Pipeline (as_then_args fs) = Ret p -> holds_callable p = true.
Proof.
  destruct fs as [| [f flag] rest].
  - cbn. intros H. injection H as <-. reflexivity.
  - destruct (call_chain f flag rest) as (q & Hq & Hh & _ & _).
    rewrite Hq. intros H. injection H as <-. exact Hh.
Qed.

Lemma as_then_args_app (fs gs : list (callable * bool)) :
  as_then_args (fs ++ gs) = (as_then_args fs ++ as_then_args gs)%list.
Proof. unfold as_then_args. apply map_app. Qed.

(** *** The object store *)

(** [then] on the object at [self], when it returns: it has read the
    object [o] at [self], left the interpreter state alone, and bound the
    stage that [then_] builds from [o] at an address that was free. *)
Lemma then_at_Ret (h h1 : gmap nat pipe) (st st1 : interp) (self a1 : nat)
  (f : pyfun) (ru : option string) :
  then_at self f ru (h, st) = Some ((h1, st1), Ret a1) ->
  exists o o1 : pipe,
    h !! self = Some o /\ then_ o f ru = Ret o1
    /\ h !! a1 = None /\ h1 = <[a1 := o1]> h /\ st1 = st.
Proof.
  unfold then_at, _then_at, _compose_self_with_at, pbind, load, evaluate.
  cbn [fst snd].
  destruct (h !! self) as [o |] eqn:Hself; [| discriminate].
  destruct (_compose_self_with o f) as [func | e] eqn:Hc; [| discriminate].
  unfold _then_impl_at.
  destruct ru as [ru |]; [destruct (String.eqb ru "tuple") eqn:Hru |];
    unfold construct, evaluate; cbn [fst snd]; intros Heq;
    try discriminate; injection Heq as <- <- <-;
    eexists o, _; (split; [reflexivity |]);
    (split; [unfold then_, _then, _then_impl; rewrite Hc, ?Hru; reflexivity |]);
    (split; [apply not_elem_of_dom, is_fresh |]); split; reflexivity.
Qed.

Lemma append_at_Ret (h h1 : gmap nat pipe) (st st1 : interp) (self a1 : nat)
  (op : append_op) :
  append_at self op (h, st) = Some ((h1, st1), Ret a1) ->
  exists o o1 : pipe,
    h !! self = Some o /\ append_to o op = Ret o1
    /\ h !! a1 = None /\ h1 = <[a1 := o1]> h /\ st1 = st.
Proof. destruct op as [f ru | f]; apply then_at_Ret. Qed.

(** What [then] on an object does is decided by the object alone. *)
Lemma then_at_Some (h : gmap nat pipe) (st : interp) (self : nat) (o o1 : pipe)
  (f : pyfun) (ru : option string) :
  h !! self = Some o -> then_ o f ru = Ret o1 ->
  then_at self f ru (h, st)
  = Some ((<[fresh (dom h) := o1]> h, st), Ret (fresh (dom h))).
Proof.
  intros Hself. unfold then_at, _then_at, _compose_self_with_at, pbind, load, evaluate.
  cbn [fst snd]. rewrite Hself. unfold then_, _then.
  destruct (_compose_self_with o f) as [func | e]; [| discriminate].
  unfold _then_impl_at, _then_impl.
  destruct ru as [ru |]; [destruct (String.eqb ru "tuple") |];
    intros Heq; try discriminate; injection Heq as <-; reflexivity.
Qed.

Lemma append_at_Some (h : gmap nat pipe) (st : interp) (self : nat) (o o1 : pipe)
  (op : append_op) :
  h !! self = Some o -> append_to o op = Ret o1 ->
  append_at self op (h, st)
  = Some ((<[fresh (dom h) := o1]> h, st), Ret (fresh (dom h))).
Proof. destruct op as [f ru | f]; apply then_at_Some. Qed.

(** [call] on the object at [self] gives the store back as it was, and
    what it does otherwise is decided by the object alone. *)
Lemma call_at_Some (h : gmap nat pipe) (st : interp) (self : nat) (o : pipe)
  args kw :
  h !! self = Some o ->
  call_at self args kw (h, st)
  = Some ((h, fst (call o args kw st)), snd (call o args kw st)).
Proof.
  intros Hself. unfold call_at, pbind, load. cbn [fst snd]. rewrite Hself.
  destruct o as [| pf | pf]; [reflexivity | |];
    unfold run; cbn [fst snd call self_f];
    destruct (py_call pf args kw st) as [st' r]; reflexivity.
Qed.

Lemma or_at_Some (py_warn : warning -> M unit) (h : gmap nat pipe) (st : interp)
  (self : nat) (o : pipe) args kw :
  h !! self = Some o ->
  or_at py_warn self args kw (h, st)
  = Some ((h, fst (__or__ py_warn o args kw st)), snd (__or__ py_warn o args kw st)).
Proof.
  intros Hself. unfold or_at, pbind, load. cbn [fst snd]. rewrite Hself.
  destruct o as [| pf | pf]; [reflexivity | |];
    unfold run, __or__, bind; cbn [fst snd];
    destruct (warning_unstable_feature_or_operator py_warn st) as [st' [[] | e]];
    try reflexivity;
    rewrite (call_at_Some h st' self _ args kw Hself); reflexivity.
Qed.

(** *** The claims *)

(** C1. [Pipeline().then(f).then(g).then(h).call(x)] returns [h(g(f(x)))];
    and a pipeline of any number of stages appended with plain [then]
    always builds, and calling it on [x] applies the callables left to
    right, the single return value of each passed as the one positional
    argument of the next. *)
Theorem C1_plain_chain_left_to_right :
  (forall (f g h : callable) (x : value) (st : interp),
     exists p1 p2 p3 : pipe,
       then_ Pipeline (Some f) None = Ret p1
       /\ then_ p1 (Some g) None = Ret p2
       /\ then_ p2 (Some h) None = Ret p3
       /\ call p3 [x] [] st = (a <- f [x] [] ;; b <- g [a] [] ;; h [b] []) st)
  /\ (forall (f : callable) (fs : list callable) (x : value) (st : interp),
        exists p : pipe,
          then_all Pipeline (as_then_args (plain (f :: fs))) = Ret p
          /\ call p [x] [] st = (a <- f [x] [] ;; apply_each fs a) st).
Proof.
  split.
  - intros f g h x st.
    exists (_PipeStd (Some f)),
           (_PipeStd (Some (_compose_no_ret_unpack (Some f) (Some g)))),
           (_PipeStd (Some (_compose_no_ret_unpack
                              (Some (_compose_no_ret_unpack (Some f) (Some g)))
                              (Some h)))).
    repeat split.
    cbn [call py_call]. unfold _compose_no_ret_unpack. cbn [py_call].
    apply bind_assoc.
  - intros f fs x st.
    destruct (call_chain f false (plain fs)) as (p & Hp & _ & _ & Hcall).
    exists p. split; [exact Hp |].
    rewrite Hcall. apply bind_ext; [reflexivity |].
    intros a st'. apply left_to_right_plain.
Qed.

(** C2. If [f] returns the pair [(a, b)] on the call's arguments, then
    [Pipeline().then(f, result_unpack="tuple").then(g)] called on those
    arguments returns [g(a, b)]: the pair is spread over the positional
    parameters of [g]. *)
Theorem C2_tuple_unpack_spreads_pair
  (f g : callable) (args : list value) (kw : kwargs) (a b : value)
  (st st' : interp) :
  f args kw st = (st', Ret (VTuple [a; b])) ->
  exists p1 p2 : pipe,
    then_ Pipeline (Some f) (Some "tuple") = Ret p1
    /\ then_ p1 (Some g) None = Ret p2
    /\ call p2 args kw st = g [a; b] [] st'.
Proof.
  intros Hf.
  exists (_PipeTUn (Some f)),
         (_PipeStd (Some (_compose_ret_tuple_unpack (Some f) (Some g)))).
  repeat split.
  cbn [call py_call]. unfold _compose_ret_tuple_unpack. cbn [py_call].
  rewrite (bind_Ret _ _ _ _ _ Hf). reflexivity.
Qed.

(** C3. [Pipeline().then(f)] wraps [f] itself, with no composition, and
    calling it is calling [f]. *)
Theorem C3_first_stage_is_the_callable (f : callable) :
  exists p : pipe,
    then_ Pipeline (Some f) None = Ret p
    /\ self_f p = Some f
    /\ forall args kw (st : interp), call p args kw st = f args kw st.
Proof. exists (_PipeStd (Some f)). repeat split. Qed.

(** C4. Flagging the last stage with [result_unpack="tuple"] does not
    change what [call] returns: whenever the unflagged [then] builds a
    stage, the flagged [then] builds one too, it wraps the same callable,
    and both stages return the same outcome on every call. *)
Theorem C4_trailing_tuple_flag_inert
  (p : pipe) (g : pyfun) (s1 : pipe) :
  then_ p g None = Ret s1 ->
  exists s2 : pipe,
    then_ p g (Some "tuple") = Ret s2
    /\ _compose_type s2 = "tuple_unpack"
    /\ (forall args kw (st : interp),
          call s2 args kw st = py_call (self_f s1) args kw st)
    /\ forall args kw (st : interp), call s2 args kw st = call s1 args kw st.
Proof.
  unfold then_, _then. intros H.
  destruct (_compose_self_with p g) as [func | e]; [| discriminate].
  cbn in H. injection H as <-.
  exists (_PipeTUn func). repeat split.
Qed.

(** C5. On every stage that is the empty [Pipeline] or holds a callable,
    [then(f, result_unpack=X)] with [X] other than ["tuple"] raises a
    [ValueError] whose message ends with [X], and returns no stage. *)
Theorem C5_unsupported_unpack_mode
  (p : pipe) (f : pyfun) (X : string) :
  holds_callable p = true ->
  X <> "tuple" ->
  then_ p f (Some X) = Raise (ValueError ("Unsupported unpack result: " ++ X))
  /\ forall q : pipe, then_ p f (Some X) <> Ret q.
Proof.
  intros Hp HX.
  assert (HXb : String.eqb X "tuple" = false) by (apply String.eqb_neq; exact HX).
  assert (H : then_ p f (Some X)
              = Raise (ValueError ("Unsupported unpack result: " ++ X))).
  { unfold then_, _then.
    destruct p as [| [pf |] | [pf |]]; cbn in Hp; try discriminate;
      cbn; rewrite HXb; reflexivity. }
  split; [exact H |]. intros q Hq. rewrite H in Hq. discriminate.
Qed.

(** C6. Whatever a wrapped callable raises, [call] raises: if the stages
    before [f] return and [f], entered with the arguments they hand over,
    raises [e], then the whole pipeline raises that same [e], whatever
    stages follow [f], and the state is as [f] left it. *)
Theorem C6_error_propagates_unchanged
  (pre post : list (callable * bool)) (f : callable) (flag : bool) (p_pre : pipe)
  (args a : list value) (kw k : kwargs) (st st1 st2 : interp) (e : exn) :
  then_all Pipeline (as_then_args pre) = Ret p_pre ->
  next_args p_pre (Some f) args kw st = (st1, Ret (a, k)) ->
  f a k st1 = (st2, Raise e) ->
  exists q : pipe,
    then_all Pipeline (as_then_args (pre ++ (f, flag) :: post)) = Ret q
    /\ call q args kw st = (st2, Raise e).
Proof.
  intros Hpre Hnext Hf.
  destruct (call_extended p_pre f flag post (then_all_holds pre p_pre Hpre))
    as (q & Hq & Hcall).
  exists q. split.
  - rewrite as_then_args_app, then_all_app, Hpre. exact Hq.
  - rewrite Hcall. rewrite (bind_Ret _ _ _ _ _ Hnext). cbn [fst snd].
    apply (bind_Raise _ _ _ _ _ Hf).
Qed.


(** C8. Every stage built from [Pipeline()] by [then] and [>>] with actual
    callables is the empty [Pipeline] or holds a callable, so
    [_compose_self_with] on it returns a callable whatever it is given:
    it takes neither of its error branches. *)
Theorem C8_wrong_compose_type_unreachable (p : pipe) :
  built p ->
  (p = Pipeline \/ exists c : callable, self_f p = Some c)
  /\ forall g : pyfun, exists func : pyfun, _compose_self_with p g = Ret func.
Proof.
  intros Hb.
  assert (Hp : p = Pipeline \/ exists c : callable, self_f p = Some c).
  { induction Hb as [| p g ru p' Hb IH Hthen | p g p' Hb IH Hthen].
    - left. reflexivity.
    - right. unfold then_, _then in Hthen.
      destruct IH as [-> | [c Hc]].
      + cbn in Hthen. unfold _then_impl in Hthen.
        destruct ru as [ru |]; [destruct (String.eqb ru "tuple") |];
          try discriminate; injection Hthen as <-; eexists; reflexivity.
      + destruct p as [| pf | pf]; cbn in Hc; try discriminate; subst pf;
          cbn in Hthen; unfold _then_impl in Hthen;
          (destruct ru as [ru |]; [destruct (String.eqb ru "tuple") |]);
          try discriminate; injection Hthen as <-; eexists; reflexivity.
    - right. unfold __rshift__, then_, _then in Hthen.
      destruct IH as [-> | [c Hc]].
      + cbn in Hthen. injection Hthen as <-. eexists; reflexivity.
      + destruct p as [| pf | pf]; cbn in Hc; try discriminate; subst pf;
          cbn in Hthen; injection Hthen as <-; eexists; reflexivity. }
  split; [exact Hp |]. intros g.
  destruct Hp as [-> | [c Hc]].
  - exists g. reflexivity.
  - destruct p as [| pf | pf]; cbn in Hc; try discriminate; subst pf;
      eexists; reflexivity.
Qed.

(** C9 (amended). On a non-empty stage, each use of the operator [|]
    calls [warnings.warn] once, before the call, with the message that
    urges the [call] method, the category [UnstableFeatureWarning] and
    stack level 3.  When [warnings.warn] returns, the operator returns
    exactly what [call] returns on the same arguments from the state the
    warning left: under a filter that shows every warning the diagnostic is
    added at each use, whatever was shown before, and under one that
    ignores it nothing is shown.  When [warnings.warn] raises, as it does
    under the filter action "error", the operator raises the same and
    [call] is not reached. *)
Theorem C9_or_operator_warns_then_calls
  (py_warn : warning -> M unit) (p : pipe) (args : list value) (kw : kwargs)
  (st : interp) :
  p <> Pipeline ->
  let w := Warning "Operator `|` is experimental/unstable. Prefer `call` method instead."
                   "UnstableFeatureWarning" 3 in
  (forall st' : interp,
     py_warn w st = (st', Ret tt) ->
     __or__ py_warn p args kw st = call p args kw st')
  /\ (forall (st' : interp) (e : exn),
        py_warn w st = (st', Raise e) ->
        __or__ py_warn p args kw st = (st', Raise e))
  /\ __or__ (warn_under act_always) p args kw st
     = call p args kw (Interp (user st) (warnings st ++ [w]))
  /\ __or__ (warn_under act_ignore) p args kw st = call p args kw st
  /\ __or__ (warn_under act_error) p args kw st
     = (st, Raise (Exn "UnstableFeatureWarning"
                       "Operator `|` is experimental/unstable. Prefer `call` method instead.")).
Proof.
  intros Hp. cbn zeta.
  destruct p as [| pf | pf]; [contradiction | |];
    unfold __or__, warning_unstable_feature_or_operator, unstable_operator_warning;
    (split; [intros st' Hw; unfold bind; rewrite Hw; reflexivity |]);
    (split; [intros st' e Hw; unfold bind; rewrite Hw; reflexivity |]);
    repeat split.
Qed.

(** C10. [call] forwards its positional and keyword arguments unchanged to
    the first callable of the pipeline, however many stages follow; in
    particular [Pipeline().then(f).then(g).call("a", b=1)] is
    [g(f("a", b=1))]. *)
Theorem C10_call_forwards_kwargs :
  (forall (f : callable) (flag : bool) (rest : list (callable * bool))
          (args : list value) (kw : kwargs) (st : interp),
     exists p : pipe,
       then_all Pipeline (as_then_args ((f, flag) :: rest)) = Ret p
       /\ call p args kw st = (r <- f args kw ;; left_to_right rest flag r) st)
  /\ (forall (f g : callable) (st : interp),
        exists p1 p2 : pipe,
          then_ Pipeline (Some f) None = Ret p1
          /\ then_ p1 (Some g) None = Ret p2
          /\ call p2 [VStr "a"] [("b", VInt 1)] st
             = (r <- f [VStr "a"] [("b", VInt 1)] ;; g [r] []) st).
Proof.
  split.
  - intros f flag rest args kw st.
    destruct (call_chain f flag rest) as (p & Hp & _ & _ & Hcall).
    exists p. split; [exact Hp | apply Hcall].
  - intros f g st.
    exists (_PipeStd (Some f)),
           (_PipeStd (Some (_compose_no_ret_unpack (Some f) (Some g)))).
    repeat split.
Qed.

(** *** Further properties of the composers and of the builder *)

Lemma hand_off_state (callee : pyfun) (spread : bool) (v : value) (st : interp) :
  fst (hand_off callee spread v st) = st.
Proof. destruct spread, v; reflexivity. Qed.

(** An iterable is spread alike whatever callee it is spread for. *)
Lemma star_iterable (c c' : pyfun) (v : value) (st : interp) :
  iterable v = true -> star c v st = star c' v st.
Proof. destruct v; try discriminate; reflexivity. Qed.

Lemma join_code_points (s : string) : join (code_points s) = s.
Proof.
  induction s as [| c s' IH]; [reflexivity |].
  cbn [code_points]. destruct (starts_code_point s').
  - change (String c (join (code_points s')) = String c s'). f_equal. exact IH.
  - destruct (code_points s') as [| piece pieces].
    + change (String c EmptyString = String c s'). f_equal. exact IH.
    + change (String c (join (piece :: pieces)) = String c s'). f_equal. exact IH.
Qed.

(** The first piece begins with the first byte and goes on with
    continuation bytes only; every other piece is one code point. *)
Lemma code_points_pieces (s' : string) :
  forall c : Ascii.ascii,
  exists (t : string) (rest : list string),
    code_points (String c s') = String c t :: rest
    /\ all_continuation t = true
    /\ Forall (fun piece => one_code_point piece = true) rest.
Proof.
  induction s' as [| c' s'' IH]; intros c.
  - exists EmptyString, []. repeat split. constructor.
  - destruct (IH c') as (t' & rest' & Hcp & Ht' & Hrest').
    cbn [code_points] in *. cbn [starts_code_point].
    destruct (is_continuation c') eqn:Hc'; cbn [negb].
    + rewrite Hcp. exists (String c' t'), rest'. repeat split; [| exact Hrest'].
      cbn. rewrite Hc', Ht'. reflexivity.
    + rewrite Hcp. exists EmptyString, (String c' t' :: rest').
      repeat split. constructor; [| exact Hrest'].
      cbn. rewrite Hc', Ht'. reflexivity.
Qed.

Lemma code_points_whole (s : string) :
  starts_code_point s = true ->
  Forall (fun piece => one_code_point piece = true) (code_points s).
Proof.
  destruct s as [| c s']; [constructor |]. cbn [starts_code_point]. intros Hc.
  destruct (code_points_pieces s' c) as (t & rest & -> & Ht & Hrest).
  constructor; [| exact Hrest]. cbn. rewrite Hc, Ht. reflexivity.
Qed.

(** The joints add no effect of their own: what every callable keeps, the
    callables applied left to right keep. *)
Lemma left_to_right_keeps (R : interp -> interp -> Prop) :
  (forall st, R st st) ->
  (forall st1 st2 st3, R st1 st2 -> R st2 st3 -> R st1 st3) ->
  forall rest : list (callable * bool),
    Forall (fun fb => keeps R (fst fb)) rest ->
    forall (flag : bool) (v : value) (st : interp),
      R st (fst (left_to_right rest flag v st)).
Proof.
  intros Hrefl Htrans rest. induction rest as [| [g b] rest IH]; intros Hall flag v st.
  - apply Hrefl.
  - inversion Hall as [| ? ? Hg Hrest]; subst. cbn [fst] in Hg.
    cbn [left_to_right]. unfold bind.
    pose proof (hand_off_state (Some g) flag v st) as Hs.
    destruct (hand_off (Some g) flag v st) as [st1 [a | e]]; cbn [fst] in Hs; subst st1;
      [| apply Hrefl].
    pose proof (Hg a [] st) as Hg'.
    destruct (g a [] st) as [st2 [r | e]]; cbn [fst] in Hg'; [| exact Hg'].
    apply (Htrans _ _ _ Hg'). apply IH. exact Hrest.
Qed.

Lemma chain_call_keeps (R : interp -> interp -> Prop) :
  (forall st, R st st) ->
  (forall st1 st2 st3, R st1 st2 -> R st2 st3 -> R st1 st3) ->
  forall (f : callable) (flag : bool) (rest : list (callable * bool)) (p : pipe),
    keeps R f ->
    Forall (fun fb => keeps R (fst fb)) rest ->
    then_all Pipeline (as_then_args ((f, flag) :: rest)) = Ret p ->
    forall args kw (st : interp), R st (fst (call p args kw st)).
Proof.
  intros Hrefl Htrans f flag rest p Hf Hrest Hp args kw st.
  destruct (call_chain f flag rest) as (q & Hq & _ & _ & Hcall).
  rewrite Hq in Hp. injection Hp as <-. rewrite Hcall. unfold bind.
  pose proof (Hf args kw st) as Hf'.
  destruct (f args kw st) as [st1 [r | e]]; cbn [fst] in Hf'; [| exact Hf'].
  apply (Htrans _ _ _ Hf'). apply left_to_right_keeps; assumption.
Qed.

(** X1. Composition is associative.  Regrouping three callables changes
    neither the outcome nor the state, also when one of them is [None] or
    raises, for the two plain composers and whenever the regrouping leaves
    the callee of each unpacking the same.  When it changes the callee into
    which the result of [f] is unpacked, the same holds provided [f] does
    not return a value that cannot be unpacked (the [TypeError] for such a
    value names the callee). *)
Theorem X1_composers_associative
  (f g h : pyfun) (args : list value) (kw : kwargs) (st : interp) :
  compose (Some (compose f g)) h args kw st
  = compose f (Some (compose g h)) args kw st
  /\ _compose_ret_tuple_unpack (Some (_compose_no_ret_unpack f g)) h args kw st
     = _compose_no_ret_unpack f (Some (_compose_ret_tuple_unpack g h)) args kw st
  /\ ((forall (st' : interp) (r : value),
         py_call f args kw st = (st', Ret r) -> iterable r = true) ->
      _compose_no_ret_unpack (Some (_compose_ret_tuple_unpack f g)) h args kw st
      = _compose_ret_tuple_unpack f (Some (_compose_no_ret_unpack g h)) args kw st
      /\ _compose_ret_tuple_unpack (Some (_compose_ret_tuple_unpack f g)) h args kw st
         = _compose_ret_tuple_unpack f (Some (_compose_ret_tuple_unpack g h)) args kw st).
Proof.
  unfold compose, _compose_no_ret_unpack, _compose_ret_tuple_unpack.
  cbn [py_call]. unfold bind.
  split; [| split].
  - destruct (py_call f args kw st) as [st1 [r | e]]; reflexivity.
  - destruct (py_call f args kw st) as [st1 [r | e]]; reflexivity.
  - intros Hit.
    destruct (py_call f args kw st) as [st1 [r | e]]; [| split; reflexivity].
    specialize (Hit st1 r eq_refl).
    split.
    + rewrite (star_iterable g (Some (fun args0 kw0 st0 =>
                 match py_call g args0 kw0 st0 with
                 | (st', Ret a) => py_call h [a] [] st'
                 | (st', Raise e) => (st', Raise e)
                 end)) r st1 Hit).
      destruct (star _ r st1) as [st2 [rs | e]]; reflexivity.
    + rewrite (star_iterable g (Some (fun args0 kw0 st0 =>
                 match py_call g args0 kw0 st0 with
                 | (st', Ret a) =>
                     match star h a st' with
                     | (st'0, Ret a0) => py_call h a0 [] st'0
                     | (st'0, Raise e) => (st'0, Raise e)
                     end
                 | (st', Raise e) => (st', Raise e)
                 end)) r st1 Hit).
      destruct (star _ r st1) as [st2 [rs | e]]; reflexivity.
Qed.

(** X2. The tuple-unpacking composer spreads every iterable result of [f],
    not only pairs: a tuple of any length or a list gives its items as the
    positional arguments of [g]; a string gives pieces that put together
    are the string, each piece one code point when the string begins one.
    [g] gets no keyword argument and is entered in the state [f] left. *)
Theorem X2_tuple_unpack_spreads_iterables
  (f : callable) (g : pyfun) (args : list value) (kw : kwargs)
  (r : value) (st st' : interp) :
  f args kw st = (st', Ret r) ->
  (forall items : list value,
     r = VTuple items \/ r = VList items ->
     _compose_ret_tuple_unpack (Some f) g args kw st = py_call g items [] st')
  /\ (forall s : string,
        r = VStr s ->
        exists pieces : list string,
          _compose_ret_tuple_unpack (Some f) g args kw st
          = py_call g (map VStr pieces) [] st'
          /\ join pieces = s
          /\ (starts_code_point s = true ->
              Forall (fun piece => one_code_point piece = true) pieces)).
Proof.
  intros Hf. unfold _compose_ret_tuple_unpack. cbn [py_call].
  rewrite (bind_Ret _ _ _ _ _ Hf). split.
  - intros items [-> | ->]; reflexivity.
  - intros s ->. exists (code_points s). split; [reflexivity |].
    split; [apply join_code_points | apply code_points_whole].
Qed.

(** X3. When [f] returns [None], a bool or an int, the tuple-unpacking
    composer raises a [TypeError] in the state [f] left, whatever [g] is:
    [g] is never entered. *)
Theorem X3_tuple_unpack_rejects_non_iterable
  (f : callable) (args : list value) (kw : kwargs) (r : value) (st st' : interp) :
  f args kw st = (st', Ret r) ->
  r = VNone \/ (exists b, r = VBool b) \/ (exists z, r = VInt z) ->
  forall g : pyfun, exists msg : string,
    _compose_ret_tuple_unpack (Some f) g args kw st = (st', Raise (TypeError msg)).
Proof.
  intros Hf Hr g. unfold _compose_ret_tuple_unpack. cbn [py_call].
  rewrite (bind_Ret _ _ _ _ _ Hf).
  destruct Hr as [-> | [[b ->] | [z ->]]]; eexists; reflexivity.
Qed.

(** X4. When [f] raises, both composed callables raise the same exception
    in the state [f] left, whatever [g] is: [g] is never entered. *)
Theorem X4_composers_stop_at_first_raise
  (f : callable) (args : list value) (kw : kwargs) (e : exn) (st st' : interp) :
  f args kw st = (st', Raise e) ->
  forall g : pyfun,
    _compose_no_ret_unpack (Some f) g args kw st = (st', Raise e)
    /\ _compose_ret_tuple_unpack (Some f) g args kw st = (st', Raise e).
Proof.
  intros Hf g. unfold _compose_no_ret_unpack, _compose_ret_tuple_unpack.
  cbn [py_call]. split; apply (bind_Raise _ _ _ _ _ Hf).
Qed.


(** X6. One joint: when [g] is appended to a non-empty stage that holds a
    callable, calling the new stage calls the receiver, hands its result
    over as the receiver was flagged (the value itself, or its items), and
    enters [g] with that and no keyword argument.  The flag given with
    [g] plays no part. *)
Theorem X6_then_joins_as_receiver_was_flagged
  (p p' : pipe) (g : callable) (ru : option string)
  (args : list value) (kw : kwargs) (st : interp) :
  (p = Pipeline -> False) ->
  holds_callable p = true ->
  then_ p (Some g) ru = Ret p' ->
  call p' args kw st
  = (r <- call p args kw ;; a <- hand_off (Some g) (spreads p) r ;; g a []) st.
Proof.
  intros Hne Hp Hthen. unfold then_, _then in Hthen.
  destruct p as [| [pf |] | [pf |]]; cbn in Hp; try discriminate; [tauto | |];
    cbn in Hthen; unfold _then_impl in Hthen;
    (destruct ru as [ru |]; [destruct (String.eqb ru "tuple") |]);
    try discriminate; injection Hthen as <-;
    cbn [call py_call spreads _compose_type hand_off String.eqb Ascii.eqb Bool.eqb];
    unfold _compose_no_ret_unpack, _compose_ret_tuple_unpack; cbn [py_call];
    try reflexivity.
Qed.

(** X7. On a receiver that is [Pipeline] or holds a callable, [then]
    returns a stage exactly when [result_unpack] is [None] or ["tuple"],
    whatever object is passed as the callable; the stage it returns is
    never the empty [Pipeline], its kind is decided by [result_unpack]
    alone, and on a non-empty receiver it holds a callable.  [>>] always
    returns a stage of the regular kind. *)
Theorem X7_then_succeeds_iff_mode_supported
  (p : pipe) (g : pyfun) (ru : option string) :
  holds_callable p = true ->
  ((exists p' : pipe, then_ p g ru = Ret p') <-> (ru = None \/ ru = Some "tuple"))
  /\ (forall p' : pipe,
        then_ p g ru = Ret p' ->
        (p' = Pipeline -> False)
        /\ _compose_type p'
           = match ru with None => "regular" | Some _ => "tuple_unpack" end
        /\ ((p = Pipeline -> False) -> holds_callable p' = true))
  /\ exists p' : pipe, __rshift__ p g = Ret p' /\ _compose_type p' = "regular".
Proof.
  intros Hp.
  assert (Hc : exists func : pyfun,
             _compose_self_with p g = Ret func
             /\ ((p = Pipeline -> False) -> exists c, func = Some c)).
  { destruct p as [| [pf |] | [pf |]]; cbn in Hp; try discriminate;
      eexists; (split; [reflexivity |]); intros Hne; [tauto | eauto | eauto]. }
  destruct Hc as (func & Hc & Hfunc).
  unfold __rshift__, then_, _then. rewrite Hc. unfold _then_impl.
  split; [| split].
  - split.
    + intros [p' H]. destruct ru as [ru |]; [| left; reflexivity].
      destruct (String.eqb ru "tuple") eqn:E; [| discriminate].
      right. apply String.eqb_eq in E. congruence.
    + intros [-> | ->]; eexists; reflexivity.
  - intros p' H.
    destruct ru as [ru |]; [destruct (String.eqb ru "tuple") |];
      try discriminate; injection H as <-;
      (split; [discriminate |]); (split; [reflexivity |]);
      intros Hne; destruct (Hfunc Hne) as [c ->]; reflexivity.
  - eexists. split; reflexivity.
Qed.

(** X8. [then] does not check that it is given a callable: [None] passed
    to [Pipeline().then] gives a stage; calling that stage raises the
    [TypeError] of calling [None] in the state it found, and every [then]
    on it raises the [ValueError] "Wrong compose type ..." of
    [_compose_self_with], whatever [result_unpack] is, an unsupported one
    included. *)
Theorem X8_stage_built_from_None
  (flag : bool) (g : pyfun) (ru : option string) :
  exists p1 : pipe,
    then_ Pipeline None (unpack_arg flag) = Ret p1
    /\ (forall args kw (st : interp),
          call p1 args kw st
          = (st, Raise (TypeError "'NoneType' object is not callable")))
    /\ exists cls : string,
         then_ p1 g ru
         = Raise (ValueError ("Wrong compose type " ++ _compose_type p1
                              ++ " for " ++ cls)).
Proof.
  destruct flag.
  - exists (_PipeTUn None). repeat split. eexists. reflexivity.
  - exists (_PipeStd None). repeat split. eexists. reflexivity.
Qed.

(** X9. The stage that a chain of plain [then] calls builds wraps exactly
    the public [compose] folded over the callables from the left. *)
Theorem X9_plain_chain_wraps_nested_compose
  (f : callable) (gs : list callable) :
  then_all Pipeline (as_then_args (plain (f :: gs)))
  = Ret (_PipeStd (Some (compose_all f gs))).
Proof.
  cbn [plain map as_then_args then_all fst snd unpack_arg].
  change (then_ Pipeline (Some f) None) with (Ret (_PipeStd (Some f))).
  cbn iota. revert f. induction gs as [| g gs IH]; intros f; [reflexivity |].
  cbn [map then_all fst snd unpack_arg].
  change (then_ (_PipeStd (Some f)) (Some g) None)
    with (Ret (_PipeStd (Some (compose (Some f) (Some g))))).
  cbn iota. apply (IH (compose (Some f) (Some g))).
Qed.

(** X10. A pipeline adds no effect of its own: a reflexive and transitive
    relation between the state before and the state after that every
    callable of the chain keeps is kept by [call], whether it returns or
    raises. *)
Theorem X10_call_adds_no_effect (R : interp -> interp -> Prop) :
  (forall st, R st st) ->
  (forall st1 st2 st3, R st1 st2 -> R st2 st3 -> R st1 st3) ->
  forall (f : callable) (flag : bool) (rest : list (callable * bool)) (p : pipe),
    keeps R f ->
    Forall (fun fb => keeps R (fst fb)) rest ->
    then_all Pipeline (as_then_args ((f, flag) :: rest)) = Ret p ->
    forall args kw (st : interp), R st (fst (call p args kw st)).
Proof. exact (chain_call_keeps R). Qed.

(** X11. On a pipeline whose callables show no warning, [call] shows none,
    also when it raises; and one use of [|] shows exactly one, the
    [UnstableFeatureWarning] urging the [call] method, when the filter
    shows every warning, shows none when the filter ignores it, and
    raises that warning in the state it found, entering no callable, when
    the filter's action is "error". *)
Theorem X11_or_issues_exactly_one_warning
  (f : callable) (flag : bool) (rest : list (callable * bool)) (p : pipe)
  (args : list value) (kw : kwargs) (st : interp) :
  keeps same_warnings f ->
  Forall (fun fb => keeps same_warnings (fst fb)) rest ->
  then_all Pipeline (as_then_args ((f, flag) :: rest)) = Ret p ->
  warnings (fst (call p args kw st)) = warnings st
  /\ warnings (fst (__or__ (warn_under act_always) p args kw st))
     = (warnings st
        ++ [Warning "Operator `|` is experimental/unstable. Prefer `call` method instead."
                    "UnstableFeatureWarning" 3])%list
  /\ warnings (fst (__or__ (warn_under act_ignore) p args kw st)) = warnings st
  /\ __or__ (warn_under act_error) p args kw st
     = (st, Raise (Exn "UnstableFeatureWarning"
                       "Operator `|` is experimental/unstable. Prefer `call` method instead.")).
Proof.
  intros Hf Hrest Hp.
  assert (Hkeep : forall args kw (st : interp),
             same_warnings st (fst (call p args kw st))).
  { apply (chain_call_keeps same_warnings) with (f := f) (flag := flag) (rest := rest);
      unfold same_warnings; try assumption; try reflexivity.
    intros st1 st2 st3 H12 H23. congruence. }
  split; [apply Hkeep |].
  destruct (call_chain f flag rest) as (q & Hq & _ & Hne & _).
  rewrite Hq in Hp. injection Hp as <-.
  destruct q as [| qf | qf]; [tauto | |];
    (split; [exact (Hkeep args kw (Interp (user st)
                      (warnings st ++ [unstable_operator_warning]))) |]);
    (split; [exact (Hkeep args kw st) | reflexivity]).
Qed.

End Properties.

(** ** The claims at concrete inputs *)

Module Witnesses.
Import Samples.

Example call_divmod_pack :
  exists p1 p2 : pipe,
    then_ Pipeline (Some divmod_) (Some "tuple") = Ret p1
    /\ then_ p1 (Some pack) None = Ret p2
    /\ call p2 [VInt 17; VInt 5] [] st0 = (Interp 2%Z [], Ret (VInt 32)).
Proof. do 2 eexists. repeat split. Qed.

Example call_divmod_flagged_last :
  exists p : pipe,
    then_ Pipeline (Some divmod_) (Some "tuple") = Ret p
    /\ call p [VInt 17; VInt 5] [] st0
       = (Interp 1%Z [], Ret (VTuple [VInt 3; VInt 2])).
Proof. eexists. repeat split. Qed.

Example call_with_keyword_argument :
  exists p1 p2 : pipe,
    then_ Pipeline (Some pipe_f1) None = Ret p1
    /\ then_ p1 (Some second) None = Ret p2
    /\ call p2 [VStr "a"] [("b", VInt 1)] st0 = (Interp 2%Z [], Ret (VInt 1)).
Proof. do 2 eexists. repeat split. Qed.

Example then_bogus :
  then_ (@Pipeline Z) (Some succ_) (Some "bogus")
  = Raise (Exn "ValueError" "Unsupported unpack result: bogus").
Proof. reflexivity. Qed.

Example then_on_stage_without_callable :
  then_ (@_PipeStd Z None) (Some succ_) (Some "bogus")
  = Raise (Exn "ValueError"
             "Wrong compose type regular for <class 'pypipeline.pipeline._PipeStd'>").
Proof. reflexivity. Qed.

Example or_twice_shows_twice_under_always :
  let p := _PipeStd (Some succ_) in
  let w := (Warning "Operator `|` is experimental/unstable. Prefer `call` method instead."
                "UnstableFeatureWarning" 3) in
  (_ <- __or__ (warn_under act_always) p [VInt 1] [] ;;
   __or__ (warn_under act_always) p [VInt 2] []) st0
  = (Interp 2%Z [w; w], Ret (VInt 3)).
Proof. reflexivity. Qed.

Lemma C2_witness :
  divmod_ [VInt 17; VInt 5] [] st0
  = (Interp 1%Z [], Ret (VTuple [VInt 3; VInt 2]))
  /\ exists p1 p2 : pipe,
       then_ Pipeline (Some divmod_) (Some "tuple") = Ret p1
       /\ then_ p1 (Some pack) None = Ret p2
       /\ call p2 [VInt 17; VInt 5] [] st0 = pack [VInt 3; VInt 2] [] (Interp 1%Z []).
Proof.
  split; [reflexivity |].
  apply (C2_tuple_unpack_spreads_pair divmod_ pack [VInt 17; VInt 5] []
           (VInt 3) (VInt 2) st0 (Interp 1%Z [])).
  reflexivity.
Defined.

Lemma C4_witness :
  then_ (_PipeTUn (Some divmod_)) (Some pack) None
  = Ret (_PipeStd (Some (_compose_ret_tuple_unpack (Some divmod_) (Some pack))))
  /\ exists s2 : pipe,
       then_ (_PipeTUn (Some divmod_)) (Some pack) (Some "tuple") = Ret s2
       /\ _compose_type s2 = "tuple_unpack"
       /\ (forall args kw (st : @interp Z),
             call s2 args kw st
             = py_call (Some (_compose_ret_tuple_unpack (Some divmod_) (Some pack)))
                 args kw st)
       /\ forall args kw (st : @interp Z),
            call s2 args kw st
            = call (_PipeStd (Some (_compose_ret_tuple_unpack (Some divmod_) (Some pack))))
                args kw st.
Proof.
  split; [reflexivity |].
  apply (C4_trailing_tuple_flag_inert (_PipeTUn (Some divmod_)) (Some pack)
           (_PipeStd (Some (_compose_ret_tuple_unpack (Some divmod_) (Some pack))))).
  reflexivity.
Defined.

Lemma C5_witness :
  holds_callable (_PipeStd (Some succ_)) = true
  /\ "bogus" <> "tuple"
  /\ then_ (_PipeStd (Some succ_)) (Some double) (Some "bogus")
     = Raise (ValueError "Unsupported unpack result: bogus")
  /\ forall q : pipe, then_ (_PipeStd (Some succ_)) (Some double) (Some "bogus") <> Ret q.
Proof.
  split; [reflexivity |].
  split; [discriminate |].
  apply (C5_unsupported_unpack_mode (_PipeStd (Some succ_)) (Some double) "bogus");
    [reflexivity | discriminate].
Defined.

Lemma C6_witness :
  then_all Pipeline (as_then_args [(divmod_, true)]) = Ret (_PipeTUn (Some divmod_))
  /\ next_args (_PipeTUn (Some divmod_)) (Some raise_custom) [VInt 17; VInt 5] [] st0
     = (Interp 1%Z [], Ret ([VInt 3; VInt 2], []))
  /\ raise_custom [VInt 3; VInt 2] [] (Interp 1%Z [])
     = (Interp 2%Z [], Raise (Exn "CustomError" "oops"))
  /\ exists q : pipe,
       then_all Pipeline
         (as_then_args ([(divmod_, true)] ++ (raise_custom, false) :: [(succ_, false)]))
       = Ret q
       /\ call q [VInt 17; VInt 5] [] st0
          = (Interp 2%Z [], Raise (Exn "CustomError" "oops")).
Proof.
  split; [reflexivity |]. split; [reflexivity |]. split; [reflexivity |].
  apply (C6_error_propagates_unchanged [(divmod_, true)] [(succ_, false)]
           raise_custom false (_PipeTUn (Some divmod_))
           [VInt 17; VInt 5] [VInt 3; VInt 2] [] [] st0 (Interp 1%Z []) (Interp 2%Z [])
           (Exn "CustomError" "oops"));
    reflexivity.
Defined.

Lemma C8_witness :
  built (_PipeStd (Some (_compose_ret_tuple_unpack (Some divmod_) (Some pack))))
  /\ ((_PipeStd (Some (_compose_ret_tuple_unpack (Some divmod_) (Some pack)))
       = Pipeline
       \/ exists c : callable,
            self_f (_PipeStd (Some (_compose_ret_tuple_unpack (Some divmod_) (Some pack))))
            = Some c)
      /\ forall g : pyfun, exists func : pyfun,
           _compose_self_with
             (_PipeStd (Some (_compose_ret_tuple_unpack (Some divmod_) (Some pack)))) g
           = Ret func).
Proof.
  assert (Hb : built (_PipeStd (Some (_compose_ret_tuple_unpack (Some divmod_) (Some pack))))).
  { apply (built_rshift (_PipeTUn (Some divmod_)) pack); [| reflexivity].
    apply (built_then Pipeline divmod_ (Some "tuple")); [| reflexivity].
    apply built_Pipeline. }
  split; [exact Hb |].
  apply (C8_wrong_compose_type_unreachable _ Hb).
Defined.

Lemma C9_witness :
  _PipeStd (Some succ_) <> Pipeline
  /\ (forall st' : @interp Z,
        warn_under act_always (Warning "Operator `|` is experimental/unstable. Prefer `call` method instead."
                "UnstableFeatureWarning" 3) st0 = (st', Ret tt) ->
        __or__ (warn_under act_always) (_PipeStd (Some succ_)) [VInt 41] [] st0
        = call (_PipeStd (Some succ_)) [VInt 41] [] st')
  /\ (forall (st' : @interp Z) (e : exn),
        warn_under act_always (Warning "Operator `|` is experimental/unstable. Prefer `call` method instead."
                "UnstableFeatureWarning" 3) st0 = (st', Raise e) ->
        __or__ (warn_under act_always) (_PipeStd (Some succ_)) [VInt 41] [] st0
        = (st', Raise e))
  /\ __or__ (warn_under act_always) (_PipeStd (Some succ_)) [VInt 41] [] st0
     = call (_PipeStd (Some succ_)) [VInt 41] []
         (Interp (user st0) (warnings st0 ++ [(Warning "Operator `|` is experimental/unstable. Prefer `call` method instead."
                "UnstableFeatureWarning" 3)]))
  /\ __or__ (warn_under act_ignore) (_PipeStd (Some succ_)) [VInt 41] [] st0
     = call (_PipeStd (Some succ_)) [VInt 41] [] st0
  /\ __or__ (warn_under act_error) (_PipeStd (Some succ_)) [VInt 41] [] st0
     = (st0, Raise (Exn "UnstableFeatureWarning"
                        "Operator `|` is experimental/unstable. Prefer `call` method instead.")).
Proof.
  split; [discriminate |].
  apply (C9_or_operator_warns_then_calls (warn_under act_always)
           (_PipeStd (Some succ_)) [VInt 41] [] st0).
  discriminate.
Defined.

(** Under the filter action "error" the operator does not return what
    [call] returns: it raises the warning, and the callable is not entered. *)
Lemma C9_counterexample :
  call (_PipeStd (Some succ_)) [VInt 41] [] st0 = (Interp 1%Z [], Ret (VInt 42))
  /\ __or__ (warn_under act_error) (_PipeStd (Some succ_)) [VInt 41] [] st0
     = (st0, Raise (Exn "UnstableFeatureWarning"
                        "Operator `|` is experimental/unstable. Prefer `call` method instead."))
  /\ snd (__or__ (warn_under act_error) (_PipeStd (Some succ_)) [VInt 41] [] st0)
     <> snd (call (_PipeStd (Some succ_)) [VInt 41] [] st0).
Proof. repeat split. discriminate. Qed.


Example call_branches_of_shared_prefix :
  call_at 0 [VInt 1] [] (h2, st0) = Some ((h2, Interp 1%Z []), Ret (VInt 2))
  /\ call_at 1 [VInt 1] [] (h2, st0) = Some ((h2, Interp 2%Z []), Ret (VInt 4))
  /\ call_at 2 [VInt 1] [] (h2, st0)
     = Some ((h2, Interp 2%Z []), Raise (Exn "CustomError" "oops")).
Proof. repeat split. Qed.

(** *** Further properties at concrete inputs *)

Ltac by_cases_on_arguments :=
  intros args kw st; cbv beta delta [bind tick ret raise]; cbn;
  repeat match goal with
         | |- context [match ?x with _ => _ end] =>
             first [ is_var x | lazymatch type of x with bool => idtac end ];
             destruct x; cbn
         end.

Lemma divmod_counts_on : keeps counts_on divmod_.
Proof. unfold keeps, counts_on, divmod_. by_cases_on_arguments; lia. Qed.

Lemma pack_counts_on : keeps counts_on pack.
Proof. unfold keeps, counts_on, pack. by_cases_on_arguments; lia. Qed.

Lemma divmod_same_warnings : keeps same_warnings divmod_.
Proof. unfold keeps, same_warnings, divmod_. by_cases_on_arguments; reflexivity. Qed.

Lemma pack_same_warnings : keeps same_warnings pack.
Proof. unfold keeps, same_warnings, pack. by_cases_on_arguments; reflexivity. Qed.

Example tuple_unpack_spreads_string :
  _compose_ret_tuple_unpack (Some spell) (Some count) [] [] st0
  = (Interp 2%Z [], Ret (VInt 2))
  /\ code_points "né" = ["n"; "é"].
Proof. split; reflexivity. Qed.

Lemma X1_witness :
  (forall (st' : @interp Z) (r : value),
     py_call (Some divmod_) [VInt 17; VInt 5] [] st0 = (st', Ret r) ->
     iterable r = true)
  /\ compose (Some (compose (Some divmod_) (Some second))) (Some succ_)
       [VInt 17; VInt 5] [] st0
     = compose (Some divmod_) (Some (compose (Some second) (Some succ_)))
         [VInt 17; VInt 5] [] st0
  /\ _compose_ret_tuple_unpack (Some (_compose_no_ret_unpack (Some divmod_) (Some second)))
       (Some succ_) [VInt 17; VInt 5] [] st0
     = _compose_no_ret_unpack (Some divmod_)
         (Some (_compose_ret_tuple_unpack (Some second) (Some succ_)))
         [VInt 17; VInt 5] [] st0
  /\ _compose_no_ret_unpack (Some (_compose_ret_tuple_unpack (Some divmod_) (Some pack)))
       (Some succ_) [VInt 17; VInt 5] [] st0
     = _compose_ret_tuple_unpack (Some divmod_)
         (Some (_compose_no_ret_unpack (Some pack) (Some succ_)))
         [VInt 17; VInt 5] [] st0
  /\ _compose_ret_tuple_unpack
       (Some (_compose_ret_tuple_unpack (Some divmod_) (Some pack)))
       (Some succ_) [VInt 17; VInt 5] [] st0
     = _compose_ret_tuple_unpack (Some divmod_)
         (Some (_compose_ret_tuple_unpack (Some pack) (Some succ_)))
         [VInt 17; VInt 5] [] st0.
Proof.
  assert (Hit : forall (st' : @interp Z) (r : value),
             py_call (Some divmod_) [VInt 17; VInt 5] [] st0 = (st', Ret r) ->
             iterable r = true).
  { intros st' r Hr. vm_compute in Hr. injection Hr as <- <-. reflexivity. }
  split; [exact Hit |].
  split; [apply (X1_composers_associative (Some divmod_) (Some second) (Some succ_)
                   [VInt 17; VInt 5] [] st0) |].
  split; [apply (X1_composers_associative (Some divmod_) (Some second) (Some succ_)
                   [VInt 17; VInt 5] [] st0) |].
  apply (X1_composers_associative (Some divmod_) (Some pack) (Some succ_)
           [VInt 17; VInt 5] [] st0).
  exact Hit.
Defined.

Lemma X2_witness :
  spell [] [] st0 = (Interp 1%Z [], Ret (VStr "né"))
  /\ (forall items : list value,
        VStr "né" = VTuple items \/ VStr "né" = VList items ->
        _compose_ret_tuple_unpack (Some spell) (Some count) [] [] st0
        = py_call (Some count) items [] (Interp 1%Z []))
  /\ (forall s : string,
        VStr "né" = VStr s ->
        exists pieces : list string,
          _compose_ret_tuple_unpack (Some spell) (Some count) [] [] st0
          = py_call (Some count) (map VStr pieces) [] (Interp 1%Z [])
          /\ join pieces = s
          /\ (starts_code_point s = true ->
              Forall (fun piece => one_code_point piece = true) pieces)).
Proof.
  split; [reflexivity |].
  apply (X2_tuple_unpack_spreads_iterables spell (Some count) [] []
           (VStr "né") st0 (Interp 1%Z [])).
  reflexivity.
Defined.

Lemma X3_witness :
  succ_ [VInt 1] [] st0 = (Interp 1%Z [], Ret (VInt 2))
  /\ (VInt 2 = VNone \/ (exists b, VInt 2 = VBool b) \/ (exists z, VInt 2 = VInt z))
  /\ forall g : @pyfun Z, exists msg : string,
       _compose_ret_tuple_unpack (Some succ_) g [VInt 1] [] st0
       = (Interp 1%Z [], Raise (TypeError msg)).
Proof.
  split; [reflexivity |]. split; [right; right; exists 2%Z; reflexivity |].
  apply (X3_tuple_unpack_rejects_non_iterable succ_ [VInt 1] [] (VInt 2) st0
           (Interp 1%Z []));
    [reflexivity | right; right; exists 2%Z; reflexivity].
Defined.

Lemma X4_witness :
  divmod_ [VInt 1; VInt 0] [] st0
  = (Interp 1%Z [],
     Raise (Exn "ZeroDivisionError" "integer division or modulo by zero"))
  /\ forall g : @pyfun Z,
       _compose_no_ret_unpack (Some divmod_) g [VInt 1; VInt 0] [] st0
       = (Interp 1%Z [],
          Raise (Exn "ZeroDivisionError" "integer division or modulo by zero"))
       /\ _compose_ret_tuple_unpack (Some divmod_) g [VInt 1; VInt 0] [] st0
          = (Interp 1%Z [],
             Raise (Exn "ZeroDivisionError" "integer division or modulo by zero")).
Proof.
  split; [reflexivity |].
  apply (X4_composers_stop_at_first_raise divmod_ [VInt 1; VInt 0] []
           (Exn "ZeroDivisionError" "integer division or modulo by zero")
           st0 (Interp 1%Z [])).
  reflexivity.
Defined.


Lemma X6_witness :
  (_PipeTUn (Some divmod_) = Pipeline -> False)
  /\ holds_callable (_PipeTUn (Some divmod_)) = true
  /\ then_ (_PipeTUn (Some divmod_)) (Some pack) (Some "tuple")
     = Ret (_PipeTUn (Some (_compose_ret_tuple_unpack (Some divmod_) (Some pack))))
  /\ call (_PipeTUn (Some (_compose_ret_tuple_unpack (Some divmod_) (Some pack))))
       [VInt 17; VInt 5] [] st0
     = (r <- call (_PipeTUn (Some divmod_)) [VInt 17; VInt 5] [] ;;
        a <- hand_off (Some pack) (spreads (_PipeTUn (Some divmod_))) r ;;
        pack a []) st0.
Proof.
  split; [discriminate |]. split; [reflexivity |]. split; [reflexivity |].
  apply (X6_then_joins_as_receiver_was_flagged (_PipeTUn (Some divmod_))
           (_PipeTUn (Some (_compose_ret_tuple_unpack (Some divmod_) (Some pack))))
           pack (Some "tuple") [VInt 17; VInt 5] [] st0);
    [discriminate | reflexivity | reflexivity].
Defined.

Lemma X7_witness :
  holds_callable (_PipeStd (Some succ_)) = true
  /\ ((exists p' : pipe, then_ (_PipeStd (Some succ_)) None (Some "dict") = Ret p')
      <-> (Some "dict" = None \/ Some "dict" = Some "tuple"))
  /\ (forall p' : pipe,
        then_ (_PipeStd (Some succ_)) None (Some "dict") = Ret p' ->
        (p' = Pipeline -> False)
        /\ _compose_type p' = "tuple_unpack"
        /\ ((_PipeStd (Some succ_) = Pipeline -> False) -> holds_callable p' = true))
  /\ exists p' : pipe,
       __rshift__ (_PipeStd (Some succ_)) None = Ret p' /\ _compose_type p' = "regular".
Proof.
  split; [reflexivity |].
  apply (X7_then_succeeds_iff_mode_supported (_PipeStd (Some succ_)) None (Some "dict")).
  reflexivity.
Defined.

Lemma X10_witness :
  (forall st, counts_on st st)
  /\ (forall st1 st2 st3, counts_on st1 st2 -> counts_on st2 st3 -> counts_on st1 st3)
  /\ keeps counts_on divmod_
  /\ Forall (fun fb => keeps counts_on (fst fb)) [(pack, false)]
  /\ then_all Pipeline (as_then_args [(divmod_, true); (pack, false)])
     = Ret (_PipeStd (Some (_compose_ret_tuple_unpack (Some divmod_) (Some pack))))
  /\ forall args kw (st : @interp Z),
       counts_on st
         (fst (call (_PipeStd (Some (_compose_ret_tuple_unpack (Some divmod_) (Some pack))))
                 args kw st)).
Proof.
  assert (Hrefl : forall st, counts_on st st) by (intros st; unfold counts_on; lia).
  assert (Htrans : forall st1 st2 st3,
             counts_on st1 st2 -> counts_on st2 st3 -> counts_on st1 st3)
    by (unfold counts_on; intros; lia).
  assert (Hrest : Forall (fun fb => keeps counts_on (fst fb)) [(pack, false)])
    by (repeat constructor; exact pack_counts_on).
  split; [exact Hrefl |]. split; [exact Htrans |].
  split; [exact divmod_counts_on |]. split; [exact Hrest |]. split; [reflexivity |].
  apply (X10_call_adds_no_effect counts_on Hrefl Htrans divmod_ true [(pack, false)]
           _ divmod_counts_on Hrest).
  reflexivity.
Defined.

Lemma X11_witness :
  keeps same_warnings divmod_
  /\ Forall (fun fb => keeps same_warnings (fst fb)) [(pack, false)]
  /\ then_all Pipeline (as_then_args [(divmod_, true); (pack, false)])
     = Ret (_PipeStd (Some (_compose_ret_tuple_unpack (Some divmod_) (Some pack))))
  /\ warnings
       (fst (call (_PipeStd (Some (_compose_ret_tuple_unpack (Some divmod_) (Some pack))))
               [VInt 1; VInt 0] [] st0))
     = warnings st0
  /\ warnings
       (fst (__or__ (warn_under act_always)
               (_PipeStd (Some (_compose_ret_tuple_unpack (Some divmod_) (Some pack))))
               [VInt 1; VInt 0] [] st0))
     = (warnings st0 ++ [(Warning "Operator `|` is experimental/unstable. Prefer `call` method instead."
                "UnstableFeatureWarning" 3)])%list
  /\ warnings
       (fst (__or__ (warn_under act_ignore)
               (_PipeStd (Some (_compose_ret_tuple_unpack (Some divmod_) (Some pack))))
               [VInt 1; VInt 0] [] st0))
     = warnings st0
  /\ __or__ (warn_under act_error)
       (_PipeStd (Some (_compose_ret_tuple_unpack (Some divmod_) (Some pack))))
       [VInt 1; VInt 0] [] st0
     = (st0, Raise (Exn "UnstableFeatureWarning"
                        "Operator `|` is experimental/unstable. Prefer `call` method instead.")).
Proof.
  assert (Hrest : Forall (fun fb => keeps same_warnings (fst fb)) [(pack, false)])
    by (repeat constructor; exact pack_same_warnings).
  split; [exact divmod_same_warnings |]. split; [exact Hrest |]. split; [reflexivity |].
  apply (X11_or_issues_exactly_one_warning divmod_ true [(pack, false)]
           _ [VInt 1; VInt 0] [] st0 divmod_same_warnings Hrest).
  reflexivity.
Defined.

End Witnesses.
